(** * KPI dashboard (app.py): metric, risk, diagnosis, score and forecast engine

    A shallow embedding of the computation of [app.py] and the properties
    of it that the specification states.

    Numbers.  The cells of the uploaded table and every value computed from
    them are NumPy scalars.  A finite scalar is modelled by the rational it
    denotes and arithmetic on finite values is exact (no rounding, overflow
    or underflow); the model keeps the three non-finite results of IEEE
    arithmetic, which is how the division of a NumPy scalar by zero shows
    up in the script: it does not raise.  Zero is unsigned in the model: a
    zero divisor is the positive zero that a zero cell or a zero quotient
    of non-negative values yields. *)

From Stdlib Require Import ZArith QArith Qround Qabs List String Bool Lia Lqa.
Import ListNotations.

Local Open Scope Q_scope.

(** ** NumPy floating-point scalars *)

Module Float.

Inductive float : Type :=
| Fin (q : Q)
| PInf
| NInf
| NaN.

Definition is_finite (x : float) : bool :=
  match x with Fin _ => true | _ => false end.

Definition is_zero (q : Q) : bool := Qeq_bool q 0.
Definition is_neg (q : Q) : bool := negb (Qle_bool 0 q).

(** Sign of the infinity obtained from an infinity of sign [pos] and a
    finite factor or divisor [q] (zero counts as positive). *)
Definition inf_signed (pos : bool) (q : Q) : float :=
  if Bool.eqb pos (negb (is_neg q)) then PInf else NInf.

Definition neg (x : float) : float :=
  match x with
  | Fin q => Fin (- q)
  | PInf => NInf
  | NInf => PInf
  | NaN => NaN
  end.

Definition add (x y : float) : float :=
  match x, y with
  | NaN, _ | _, NaN => NaN
  | Fin a, Fin b => Fin (a + b)
  | PInf, NInf | NInf, PInf => NaN
  | PInf, _ | _, PInf => PInf
  | NInf, _ | _, NInf => NInf
  end.

Definition sub (x y : float) : float := add x (neg y).

Definition mul (x y : float) : float :=
  match x, y with
  | NaN, _ | _, NaN => NaN
  | Fin a, Fin b => Fin (a * b)
  | Fin a, PInf | PInf, Fin a => if is_zero a then NaN else inf_signed true a
  | Fin a, NInf | NInf, Fin a => if is_zero a then NaN else inf_signed false a
  | PInf, PInf | NInf, NInf => PInf
  | PInf, NInf | NInf, PInf => NInf
  end.

(** True division.  A finite value divided by zero is an infinity of the
    sign of the dividend, and [0/0] is NaN: NumPy warns and returns. *)
Definition div (x y : float) : float :=
  match x, y with
  | NaN, _ | _, NaN => NaN
  | Fin a, Fin b =>
      if is_zero b then
        if is_zero a then NaN else inf_signed true a
      else Fin (a / b)
  | Fin _, (PInf | NInf) => Fin 0
  | PInf, Fin b => inf_signed true b
  | NInf, Fin b => inf_signed false b
  | (PInf | NInf), (PInf | NInf) => NaN
  end.

Definition abs (x : float) : float :=
  match x with
  | Fin q => Fin (Qabs q)
  | PInf | NInf => PInf
  | NaN => NaN
  end.

(** Comparisons: every comparison with NaN is false. *)
Definition ltb (x y : float) : bool :=
  match x, y with
  | NaN, _ | _, NaN => false
  | Fin a, Fin b => negb (Qle_bool b a)
  | NInf, (Fin _ | PInf) => true
  | Fin _, PInf => true
  | _, _ => false
  end.

Definition leb (x y : float) : bool :=
  match x, y with
  | NaN, _ | _, NaN => false
  | Fin a, Fin b => Qle_bool a b
  | NInf, _ => true
  | _, PInf => true
  | _, _ => false
  end.

Definition geb (x y : float) : bool := leb y x.

(** Equality of the denoted values. *)
Definition eq (x y : float) : Prop :=
  match x, y with
  | Fin a, Fin b => a == b
  | PInf, PInf | NInf, NInf | NaN, NaN => True
  | _, _ => False
  end.

Definition of_Z (z : Z) : float := Fin (inject_Z z).

End Float.

Import Float.

(** ** Rounding *)

(** [numpy.rint]: to the nearest integer, ties to the even one. *)
Definition rint (q : Q) : Z :=
  let f := Qfloor q in
  match Qcompare (q - inject_Z f) (1 # 2) with
  | Lt => f
  | Gt => (f + 1)%Z
  | Eq => if Z.even f then f else (f + 1)%Z
  end.

(** ** Exceptions and results *)

(** The exceptions the script can raise: an out-of-range positional read
    ([.iloc]) and the conversion of a non-finite value to an integer
    ([round]). *)
Inductive exn : Type :=
| IndexError
| OverflowError
| ValueError.

Definition exn_name (e : exn) : string :=
  match e with
  | IndexError => "IndexError"
  | OverflowError => "OverflowError"
  | ValueError => "ValueError"
  end.

Inductive result (A : Type) : Type :=
| Ok (a : A)
| Raise (e : exn).

Arguments Ok {A} a.
Arguments Raise {A} e.

Definition bind {A B : Type} (r : result A) (k : A -> result B) : result B :=
  match r with
  | Ok a => k a
  | Raise e => Raise e
  end.

Declare Scope result_scope.
Delimit Scope result_scope with result.
Notation "x <- r ;; k" := (bind r (fun x => k))
  (at level 61, r at next level, right associativity) : result_scope.

Definition raises {A : Type} (name : string) (r : result A) : bool :=
  match r with
  | Ok _ => false
  | Raise e => String.eqb (exn_name e) name
  end.

(** ** The uploaded table *)

(** One line of the CSV file.  The cells of [Revenue] and [Orders] are
    finite numbers. *)
Record Row : Type := mkRow {
  Month : string;
  Revenue : Q;
  Orders : Q
}.

(** [pd.read_csv(uploaded_file)]: the header and the lines in file order.
    The three fields of a line are read only after the header check. *)
Record DataFrame : Type := mkDataFrame {
  columns : list string;
  rows : list Row
}.

Definition len (df : DataFrame) : nat := List.length (rows df).

(** [df[c]]: the column as a series. *)
Definition column {A : Type} (c : Row -> A) (df : DataFrame) : list A :=
  map c (rows df).

(** [s.iloc[i]]: positional read; a negative position counts from the end,
    a position outside the series raises. *)
Definition iloc {A : Type} (s : list A) (i : Z) : result A :=
  let n := Z.of_nat (List.length s) in
  let j := if (i <? 0)%Z then (i + n)%Z else i in
  if ((0 <=? j) && (j <? n))%Z then
    match nth_error s (Z.to_nat j) with
    | Some a => Ok a
    | None => Raise IndexError
    end
  else Raise IndexError.

Definition required_columns : list string :=
  ["Month"; "Revenue"; "Orders"]%string.

(** [a.issubset(b)] *)
Definition issubset (a b : list string) : bool :=
  forallb (fun c => existsb (String.eqb c) b) a.

(** ** KPI calculations (month over month) *)

Record MetricSnapshot : Type := mkMetricSnapshot {
  current_revenue : Q;
  previous_revenue : Q;
  mom_change : float;
  current_orders : Q;
  previous_orders : Q;
  order_change : float;
  current_aov : float;
  previous_aov : float;
  aov_change : float
}.

(** [((current - previous) / previous) * 100] *)
Definition pct_change (current previous : float) : float :=
  mul (div (sub current previous) previous) (Fin 100).

Local Open Scope result_scope.

Definition kpi_calculations (df : DataFrame) : result MetricSnapshot :=
  current_revenue <- iloc (column Revenue df) (-1) ;;
  previous_revenue <- iloc (column Revenue df) (-2) ;;
  let mom_change := pct_change (Fin current_revenue) (Fin previous_revenue) in
  current_orders <- iloc (column Orders df) (-1) ;;
  previous_orders <- iloc (column Orders df) (-2) ;;
  let order_change := pct_change (Fin current_orders) (Fin previous_orders) in
  let current_aov := div (Fin current_revenue) (Fin current_orders) in
  let previous_aov := div (Fin previous_revenue) (Fin previous_orders) in
  let aov_change := pct_change current_aov previous_aov in
  Ok (mkMetricSnapshot current_revenue previous_revenue mom_change
        current_orders previous_orders order_change
        current_aov previous_aov aov_change).

(** ** Risk engine *)

Record RiskAssessment : Type := mkRisk {
  risk_level : string;
  risk_message : string
}.

Definition high_risk : RiskAssessment :=
  mkRisk "🔴 High Risk"
    "Significant revenue decline detected. Immediate investigation required.".

Definition medium_risk : RiskAssessment :=
  mkRisk "🟡 Medium Risk" "Moderate revenue decline. Monitor closely.".

Definition healthy : RiskAssessment :=
  mkRisk "🟢 Healthy" "Revenue performance is stable or growing.".

Definition risk_engine (mom_change : float) : RiskAssessment :=
  if leb mom_change (Fin (-10)) then high_risk
  else if ltb (Fin (-10)) mom_change && ltb mom_change (Fin 0) then medium_risk
  else healthy.

(** ** Diagnosis engine *)

Definition declined_together : string :=
  "Revenue and order volume declined together. Possible demand contraction.".

Definition pricing_issue : string :=
  "Revenue declined while order volume remained stable. Potential pricing issue.".

Definition no_issue : string :=
  "No major structural performance issue detected.".

Definition diagnosis_engine (mom_change order_change : float) : string :=
  if ltb mom_change (Fin 0) && ltb order_change (Fin 0) then declined_together
  else if ltb mom_change (Fin 0) && geb order_change (Fin 0) then pricing_issue
  else no_issue.

(** ** Risk score *)

(** [round(x)] of a NumPy scalar: [int(numpy.rint(x))]; the conversion of
    an infinity or of NaN to an integer raises. *)
Definition round (x : float) : result Z :=
  match x with
  | Fin q => Ok (rint q)
  | PInf | NInf => Raise OverflowError
  | NaN => Raise ValueError
  end.

(** [abs(mom_change)*2 + abs(order_change)*1.5 + abs(aov_change)*1.2] *)
Definition weighted_sum (mom_change order_change aov_change : float) : float :=
  add (add (mul (abs mom_change) (Fin 2))
           (mul (abs order_change) (Fin (3 # 2))))
      (mul (abs aov_change) (Fin (6 # 5))).

Definition risk_score (mom_change order_change aov_change : float) : result Z :=
  r <- round (weighted_sum mom_change order_change aov_change) ;;
  Ok (Z.min r 100).

(** ** Revenue forecast *)

(** [np.arange(n)] *)
Definition arange (n : nat) : list Q :=
  map (fun i => inject_Z (Z.of_nat i)) (seq 0 n).

Definition Qsum (l : list Q) : Q := fold_right Qplus 0 l.

Definition dot (xs ys : list Q) : Q :=
  Qsum (map (fun p => fst p * snd p) (combine xs ys)).

(** [np.polyfit(x, y, 1)]: the coefficients, highest degree first, of the
    least-squares line through the points: the solution of the normal
    equations, which is unique when two of the abscissas differ, as they
    do in the script, which reaches the fit with two lines or more. *)
Definition polyfit1 (x y : list Q) : Q * Q :=
  let n := inject_Z (Z.of_nat (List.length x)) in
  let sx := Qsum x in
  let sy := Qsum y in
  let sxx := dot x x in
  let sxy := dot x y in
  let slope := (n * sxy - sx * sy) / (n * sxx - sx * sx) in
  let intercept := (sy - slope * sx) / n in
  (slope, intercept).

(** [np.poly1d(coefficients)(t)] for a polynomial of degree one. *)
Definition poly1d (coefficients : Q * Q) (t : Q) : Q :=
  fst coefficients * t + snd coefficients.

(** [round(x, 0)] of a NumPy scalar: [numpy.rint], still a float. *)
Definition round0 (x : Q) : Q := inject_Z (rint x).

Record Forecast : Type := mkForecast {
  coefficients : Q * Q;
  next_month_index : nat;
  forecast_revenue : Q
}.

Definition revenue_forecast (df : DataFrame) : Forecast :=
  let x := arange (len df) in
  let y := column Revenue df in
  let coefficients := polyfit1 x y in
  let trend_line := poly1d coefficients in
  let next_month_index := len df in
  mkForecast coefficients next_month_index
    (round0 (trend_line (inject_Z (Z.of_nat next_month_index)))).

(** ** AI commentary *)

Definition commentary_high : string :=
  "Revenue contraction detected alongside order decline. Immediate intervention recommended.".

Definition commentary_medium : string :=
  "Early signs of revenue deceleration observed. Close monitoring advised.".

Definition commentary_healthy : string :=
  "Revenue trajectory remains stable with positive order dynamics. No material performance anomaly detected.".

(** [s.startswith(p)] *)
Definition startswith (s p : string) : bool := String.prefix p s.

Definition ai_diagnosis_layer (revenue_change order_change : float)
    (risk_level : string) : string :=
  if startswith risk_level "🔴" then commentary_high
  else if startswith risk_level "🟡" then commentary_medium
  else commentary_healthy.

(** ** The engine: lines 81 to 142 of the script *)

Record Kpis : Type := mkKpis {
  metrics : MetricSnapshot;
  risk : RiskAssessment;
  diagnosis : string;
  score : Z;
  forecast : Forecast;
  ai_commentary : string
}.

Definition engine (df : DataFrame) : result Kpis :=
  m <- kpi_calculations df ;;
  let risk := risk_engine (mom_change m) in
  let diagnosis := diagnosis_engine (mom_change m) (order_change m) in
  risk_score <- risk_score (mom_change m) (order_change m) (aov_change m) ;;
  let forecast := revenue_forecast df in
  let ai_commentary :=
    ai_diagnosis_layer (mom_change m) (order_change m) (risk_level risk) in
  Ok (mkKpis m risk diagnosis risk_score forecast ai_commentary).

(** ** The page *)

Record trace : Type := mkTrace {
  trace_name : string;
  trace_x : list string;
  trace_y : list Q
}.

(** The text of the report; numbers are kept as values, not formatted. *)
Record summary : Type := mkSummary {
  sum_current_revenue : Q;
  sum_mom_change : float;
  sum_current_orders : Q;
  sum_order_change : float;
  sum_current_aov : float;
  sum_aov_change : float;
  sum_risk_score : Z;
  sum_forecast_revenue : Q;
  sum_risk_level : string;
  sum_diagnosis : string
}.

(** What a Streamlit call puts on the page. *)
Inductive widget : Type :=
| StTitle (s : string)
| StMarkdown (s : string)
| StSidebarHeader (s : string)
| StSidebarError (s : string)
| StSidebarWarning (s : string)
| StSubheader (s : string)
| StInfo (s : string)
| StMetric (label : string) (value : float) (delta : option float)
| StExpander (label : string) (body : list string)
| StPlotlyChart (traces : list trace)
| StText (s : string)
| StNumber (label : string) (value : Q)
| StReport (r : summary)
| StSuccess (s : string).

(** How a run of the script ends: it reaches its last line, it is halted
    by [st.stop()], or an exception escapes. *)
Inductive outcome : Type :=
| Done
| Stopped
| Failed (e : exn).

Local Open Scope string_scope.

Definition expected_format : string :=
  "**Expected CSV Format**

This dashboard works with a **structured CSV file** containing the following columns:

• **Month** – Time period (e.g. Jan-2024, 2024-01)
• **Revenue** – Monthly total revenue (numeric)
• **Orders** – Monthly total order count (numeric, non-zero)

_Notes:_
Data should be ordered chronologically and include at least **2 rows** for MoM comparison.".

Definition page_header : list widget :=
  [ StTitle "📊 AI-Powered Executive KPI Dashboard";
    StMarkdown expected_format;
    StSidebarHeader "Upload & Filters" ].

Definition placeholder : list widget :=
  [ StSidebarWarning "Please upload a CSV file to proceed.";
    StSubheader "📌 Dashboard Placeholder";
    StMetric "Current Revenue" (Fin 0) (Some (Fin 0));
    StMetric "Current Orders" (Fin 0) (Some (Fin 0));
    StMetric "Average Order Value" (Fin 0) (Some (Fin 0));
    StMetric "Risk Score" (Fin 0) None;
    StPlotlyChart
      [ mkTrace "Revenue Placeholder" ["Jan"; "Feb"; "Mar"; "Apr"; "May"]
          [0%Q; 0%Q; 0%Q; 0%Q; 0%Q] ];
    StInfo "Upload a CSV file to see real-time KPIs and forecasts here." ].

Definition risk_heading (risk_level : string) : string :=
  if startswith risk_level "🔴" then
    "<h3 style='color:red'>" ++ risk_level ++ "</h3>"
  else if startswith risk_level "🟡" then
    "<h3 style='color:orange'>" ++ risk_level ++ "</h3>"
  else
    "<h3 style='color:green'>" ++ risk_level ++ "</h3>".

Definition report (k : Kpis) : summary :=
  let m := metrics k in
  mkSummary (current_revenue m) (mom_change m) (current_orders m)
    (order_change m) (current_aov m) (aov_change m) (score k)
    (forecast_revenue (forecast k)) (risk_level (risk k)) (diagnosis k).

(** Lines 147 to 213: the KPIs, the expanders, the chart, the forecast and,
    when the button is pressed, the report. *)
Definition display (df : DataFrame) (k : Kpis) (button : bool) : list widget :=
  let m := metrics k in
  let forecast_months := (column Month df ++ ["Forecast"])%list in
  let trend_line := poly1d (coefficients (forecast k)) in
  ([ StMetric "Current Revenue" (Fin (current_revenue m)) (Some (mom_change m));
     StMetric "Current Orders" (Fin (current_orders m)) (Some (order_change m));
     StMetric "Average Order Value" (current_aov m) (Some (aov_change m));
     StMetric "Risk Score" (of_Z (score k)) None;
     StExpander "Performance Risk Assessment"
       [ risk_heading (risk_level (risk k)); risk_message (risk k) ];
     StExpander "Performance Diagnosis" [ diagnosis k ];
     StExpander "AI Executive Commentary" [ ai_commentary k ];
     StSubheader "Revenue Trend & Forecast";
     StPlotlyChart
       [ mkTrace "Actual Revenue" (column Month df) (column Revenue df);
         mkTrace "Trend Forecast" forecast_months
           (map trend_line (arange (List.length forecast_months))) ];
     StSubheader "Revenue Forecast";
     StNumber "Projected Next Month Revenue" (forecast_revenue (forecast k));
     StSubheader "Generate Executive Insight" ]
   ++ (if button then [ StText "### Raw KPI Summary"; StReport (report k) ]
       else [])
   ++ [ StSuccess "AI Revenue Intelligence System is running successfully 🚀" ])%list.

(** The script, run on the uploaded file (if any) and the state of the
    report button: the page it has drawn when it ends, and how it ends. *)
Definition app (uploaded_file : option DataFrame) (button : bool)
    : list widget * outcome :=
  match uploaded_file with
  | Some df =>
      if negb (issubset required_columns (columns df)) then
        ((page_header
          ++ [ StSidebarError "CSV must contain Month, Revenue, and Orders columns." ])%list,
         Stopped)
      else
        match engine df with
        | Raise e => (page_header, Failed e)
        | Ok k => ((page_header ++ display df k button)%list, Done)
        end
  | None => ((page_header ++ placeholder)%list, Stopped)
  end.

(** A widget that shows a KPI computed from the file. *)
Definition shows_kpi (w : widget) : bool :=
  match w with
  | StMetric _ _ _ | StExpander _ _ | StPlotlyChart _ | StNumber _ _
  | StReport _ => true
  | _ => false
  end.

Local Close Scope string_scope.

(** ** Comparing two scores *)

(** Both computations return, and the first score is at most the second. *)
Definition score_le (x y : result Z) : Prop :=
  match x, y with
  | Ok s, Ok s' => (s <= s')%Z
  | _, _ => False
  end.

(** ** Stating the forecast *)

(** A natural number as a scalar. *)
Definition Qnat (n : nat) : Q := inject_Z (Z.of_nat n).

(** The revenue of the line of index [i] is [a * i + b]. *)
Definition on_line (a b : Q) (df : DataFrame) : Prop :=
  forall i r, nth_error (rows df) i = Some r -> Revenue r == a * Qnat i + b.

(** The sum of the squared residuals of the line [a * x + b] at the
    points of abscissas [xs] and ordinates [ys]. *)
Definition sse (xs ys : list Q) (a b : Q) : Q :=
  Qsum (map (fun p => (snd p - (a * fst p + b)) * (snd p - (a * fst p + b)))
            (combine xs ys)).

(** ** Sample tables *)

Local Open Scope string_scope.

Definition header : list string := ["Month"; "Revenue"; "Orders"].

(** The scenario of the specification: revenue falls from 1000 to 900. *)
Definition df_scenario : DataFrame :=
  mkDataFrame header [mkRow "Jan" 1000 50; mkRow "Feb" 900 50].

(** No revenue in the previous month. *)
Definition df_zero_revenue : DataFrame :=
  mkDataFrame header [mkRow "Jan" 0 50; mkRow "Feb" 900 50].

(** No order in the previous month. *)
Definition df_zero_orders : DataFrame :=
  mkDataFrame header [mkRow "Jan" 1000 0; mkRow "Feb" 900 50].

(** A single month. *)
Definition df_one_row : DataFrame :=
  mkDataFrame header [mkRow "Jan" 1000 50].

(** The header alone. *)
Definition df_no_row : DataFrame := mkDataFrame header [].

Definition df_linear : DataFrame :=
  mkDataFrame header
    [mkRow "Jan" 100 10; mkRow "Feb" 200 10; mkRow "Mar" 300 10;
     mkRow "Apr" 400 10].

Definition df_constant : DataFrame :=
  mkDataFrame header
    [mkRow "Jan" 100 10; mkRow "Feb" 100 10; mkRow "Mar" 100 10].

(** On the line [revenue = i/4 + 1/4]. *)
Definition df_quarters : DataFrame :=
  mkDataFrame header [mkRow "Jan" (1 # 4) 10; mkRow "Feb" (1 # 2) 10].

Local Close Scope string_scope.

(** ** Parts of the page *)

(** The two widgets that the report button adds. *)
Definition report_widget (w : widget) : bool :=
  match w with
  | StText _ | StReport _ => true
  | _ => false
  end.

(** The charts of a page. *)
Definition charts (page : list widget) : list (list trace) :=
  flat_map (fun w => match w with StPlotlyChart t => [t] | _ => [] end) page.

(** ** A table in another unit *)

(** The revenues multiplied by [k] (another currency) and the order counts
    by [j] (another unit of count). *)
Definition rescale (k j : Q) (df : DataFrame) : DataFrame :=
  mkDataFrame (columns df)
    (map (fun r => mkRow (Month r) (k * Revenue r) (j * Orders r)) (rows df)).

(** [x'] is the value [x] in a unit [g] times smaller: finite values are
    multiplied by [g], the infinities and NaN stay. *)
Definition scaled (g : Q) (x x' : float) : Prop :=
  match x, x' with
  | Fin a, Fin a' => a' == g * a
  | PInf, PInf | NInf, NInf | NaN, NaN => True
  | _, _ => False
  end.

(** Two runs of the engine end the same way: on the same exception, or
    with the same level, message, diagnosis, score and commentary and with
    equal changes. *)
Definition same_verdict (x y : result Kpis) : Prop :=
  match x, y with
  | Ok a, Ok b =>
      risk a = risk b /\ diagnosis a = diagnosis b /\ score a = score b /\
      ai_commentary a = ai_commentary b /\
      Float.eq (mom_change (metrics a)) (mom_change (metrics b)) /\
      Float.eq (order_change (metrics a)) (order_change (metrics b)) /\
      Float.eq (aov_change (metrics a)) (aov_change (metrics b))
  | Raise e, Raise e' => e = e'
  | _, _ => False
  end.

(** * Properties *)

(** ** Rounding: ties go to the even integer *)

Example rint_half : rint (1 # 2) = 0%Z. Proof. reflexivity. Qed.
Example rint_3half : rint (3 # 2) = 2%Z. Proof. reflexivity. Qed.
Example rint_5half : rint (5 # 2) = 2%Z. Proof. reflexivity. Qed.
Example rint_neg : rint (- (5 # 2)) = (-2)%Z. Proof. reflexivity. Qed.
Example rint_neg2 : rint (- (26 # 10)) = (-3)%Z. Proof. reflexivity. Qed.

(** ** Comparisons of finite values *)

Lemma leb_Fin (a b : Q) : leb (Fin a) (Fin b) = true <-> a <= b.
Proof. apply Qle_bool_iff. Qed.

Lemma ltb_Fin (a b : Q) : ltb (Fin a) (Fin b) = true <-> a < b.
Proof.
  simpl. rewrite negb_true_iff, <- not_true_iff_false, Qle_bool_iff.
  split; [apply Qnot_le_lt | apply Qlt_not_le].
Qed.

Lemma leb_Fin_false (a b : Q) : leb (Fin a) (Fin b) = false <-> b < a.
Proof.
  rewrite <- not_true_iff_false, leb_Fin.
  split; [apply Qnot_le_lt | apply Qlt_not_le].
Qed.

Lemma ltb_Fin_false (a b : Q) : ltb (Fin a) (Fin b) = false <-> b <= a.
Proof.
  rewrite <- not_true_iff_false, ltb_Fin.
  split; [apply Qnot_lt_le | apply Qle_not_lt].
Qed.

(** Decides the comparisons of finite values met in a goal. *)
Ltac cmp_cases :=
  repeat match goal with
  | |- context [leb (Fin ?a) (Fin ?b)] =>
      let E := fresh "E" in
      destruct (leb (Fin a) (Fin b)) eqn:E;
      [apply leb_Fin in E | apply leb_Fin_false in E]
  | |- context [ltb (Fin ?a) (Fin ?b)] =>
      let E := fresh "E" in
      destruct (ltb (Fin a) (Fin b)) eqn:E;
      [apply ltb_Fin in E | apply ltb_Fin_false in E]
  end.

Lemma risk_engine_Fin (r : Q) :
  risk_engine (Fin r) =
  if Qle_bool r (-10) then high_risk
  else if Qle_bool 0 r then healthy else medium_risk.
Proof.
  unfold risk_engine. cmp_cases; simpl;
    repeat match goal with
    | |- context [Qle_bool ?a ?b] =>
        let E := fresh "E" in
        destruct (Qle_bool a b) eqn:E;
        [apply Qle_bool_iff in E
        | apply not_true_iff_false in E; rewrite Qle_bool_iff in E]
    end; try reflexivity; exfalso; lra.
Qed.

Local Open Scope string_scope.

(** ** Risk classifier *)

(** C3.  For a finite revenue change [r] the risk engine answers High Risk
    with its message when [r <= -10], Medium Risk with its message when
    [-10 < r < 0] and Healthy with its message when [0 <= r]; so [-10] is
    High and [0] is Healthy.  In a run of the engine the assessment is the
    classifier's answer on the revenue change alone. *)
Theorem risk_classifier_thresholds :
  (forall r : Q,
     (r <= -10 ->
      risk_engine (Fin r) =
      mkRisk "🔴 High Risk"
        "Significant revenue decline detected. Immediate investigation required.") /\
     (-10 < r /\ r < 0 ->
      risk_engine (Fin r) =
      mkRisk "🟡 Medium Risk" "Moderate revenue decline. Monitor closely.") /\
     (0 <= r ->
      risk_engine (Fin r) =
      mkRisk "🟢 Healthy" "Revenue performance is stable or growing.")) /\
  risk_engine (Fin (-10)) = high_risk /\
  risk_engine (Fin 0) = healthy /\
  (forall df k, engine df = Ok k ->
     risk k = risk_engine (mom_change (metrics k))) /\
  (forall df df' k k',
     engine df = Ok k -> engine df' = Ok k' ->
     mom_change (metrics k) = mom_change (metrics k') -> risk k = risk k').
Proof.
  assert (Hrun : forall df k, engine df = Ok k ->
            risk k = risk_engine (mom_change (metrics k))).
  { intros df k H. unfold engine in H.
    destruct (kpi_calculations df) as [m|e]; simpl in H; [|discriminate].
    destruct (risk_score _ _ _) as [s|e]; simpl in H; [|discriminate].
    injection H as <-. reflexivity. }
  repeat split; try reflexivity.
  - intros H. unfold risk_engine. cmp_cases; try reflexivity; exfalso; lra.
  - intros [H1 H2]. unfold risk_engine.
    cmp_cases; try reflexivity; exfalso; lra.
  - intros H. unfold risk_engine. cmp_cases; try reflexivity; exfalso; lra.
  - exact Hrun.
  - intros df df' k k' H H' E.
    rewrite (Hrun _ _ H), (Hrun _ _ H'), E. reflexivity.
Qed.

Lemma risk_classifier_thresholds_witness :
  risk_engine (Fin (-25 # 2)) = high_risk /\
  risk_engine (Fin (-5)) = medium_risk /\
  risk_engine (Fin (7 # 3)) = healthy.
Proof.
  destruct risk_classifier_thresholds as [H _].
  split; [|split].
  - apply (H (-25 # 2)). vm_compute. discriminate.
  - apply (H (-5)). split; reflexivity.
  - apply (H (7 # 3)). vm_compute. discriminate.
Defined.

(** ** Diagnosis engine *)

(** C4.  For finite revenue and order changes [r] and [o] the diagnosis is
    the "declined together" statement when both are negative, the "pricing
    issue" statement when [r < 0] and [0 <= o], and the "no major issue"
    statement otherwise ([0 <= r]).  The AOV change is not an argument of
    the diagnosis: in a run of the engine the diagnosis is the answer of
    the diagnosis engine on the revenue and order changes. *)
Theorem diagnosis_rules :
  (forall r o : Q,
     (r < 0 /\ o < 0 ->
      diagnosis_engine (Fin r) (Fin o) =
      "Revenue and order volume declined together. Possible demand contraction.") /\
     (r < 0 /\ 0 <= o ->
      diagnosis_engine (Fin r) (Fin o) =
      "Revenue declined while order volume remained stable. Potential pricing issue.") /\
     (0 <= r ->
      diagnosis_engine (Fin r) (Fin o) =
      "No major structural performance issue detected.")) /\
  (forall df k, engine df = Ok k ->
     diagnosis k = diagnosis_engine (mom_change (metrics k)) (order_change (metrics k))).
Proof.
  split.
  - intros r o. unfold diagnosis_engine, geb.
    repeat split; intros H; cmp_cases; simpl; try reflexivity; exfalso; lra.
  - intros df k H. unfold engine in H.
    destruct (kpi_calculations df) as [m|e]; simpl in H; [|discriminate].
    destruct (risk_score _ _ _) as [s|e]; simpl in H; [|discriminate].
    injection H as <-. reflexivity.
Qed.

Lemma diagnosis_rules_witness :
  diagnosis_engine (Fin (-3)) (Fin (-1 # 2)) = declined_together /\
  diagnosis_engine (Fin (-3)) (Fin 0) = pricing_issue /\
  diagnosis_engine (Fin 0) (Fin (-40)) = no_issue.
Proof.
  destruct diagnosis_rules as [H _].
  split; [|split].
  - apply (H (-3) (-1 # 2)). split; reflexivity.
  - apply (H (-3) 0). split; [reflexivity | vm_compute; discriminate].
  - apply (H 0 (-40)). vm_compute. discriminate.
Defined.

(** ** Commentary *)

(** C9.  The commentary is a function of the risk level alone: whatever the
    revenue and order changes passed to it, the High level yields the
    contraction text, the Medium level the deceleration text and the Healthy
    level the stable text; two calls with the same level agree. *)
Theorem commentary_from_level :
  (forall rc oc : float,
     ai_diagnosis_layer rc oc "🔴 High Risk" =
     "Revenue contraction detected alongside order decline. Immediate intervention recommended." /\
     ai_diagnosis_layer rc oc "🟡 Medium Risk" =
     "Early signs of revenue deceleration observed. Close monitoring advised." /\
     ai_diagnosis_layer rc oc "🟢 Healthy" =
     "Revenue trajectory remains stable with positive order dynamics. No material performance anomaly detected.") /\
  (forall (rc oc rc' oc' : float) (level : string),
     ai_diagnosis_layer rc oc level = ai_diagnosis_layer rc' oc' level) /\
  (forall df k (rc oc : float), engine df = Ok k ->
     ai_commentary k = ai_diagnosis_layer rc oc (risk_level (risk k))).
Proof.
  repeat split.
  intros df k rc oc H. unfold engine in H.
  destruct (kpi_calculations df) as [m|e]; simpl in H; [|discriminate].
  destruct (risk_score _ _ _) as [s|e]; simpl in H; [|discriminate].
  injection H as <-. reflexivity.
Qed.

(** ** Risk level and diagnosis agree *)

Lemma risk_healthy_iff (r : Q) :
  risk_level (risk_engine (Fin r)) = "🟢 Healthy" <-> 0 <= r.
Proof.
  unfold risk_engine. cmp_cases; simpl; split; intros H;
    try discriminate; try reflexivity; try lra.
Qed.

Lemma diagnosis_no_issue_iff (r o : Q) :
  diagnosis_engine (Fin r) (Fin o) = no_issue <-> 0 <= r.
Proof.
  unfold diagnosis_engine, geb. cmp_cases; simpl; split; intros H;
    try discriminate; try reflexivity; try lra.
Qed.

Lemma diagnosis_decline_iff (r o : Q) :
  diagnosis_engine (Fin r) (Fin o) = declined_together \/
  diagnosis_engine (Fin r) (Fin o) = pricing_issue <-> ~ 0 <= r.
Proof.
  unfold diagnosis_engine, geb.
  cmp_cases; simpl; split; intros H;
    try (left; reflexivity); try (right; reflexivity);
    try (destruct H; discriminate); try lra.
Qed.

(** C10.  For finite revenue and order changes the risk engine answers
    Healthy exactly when the diagnosis engine answers "no major issue";
    both hold exactly when the revenue change is not negative.  So a level
    other than Healthy comes with one of the two decline diagnoses, and
    conversely. *)
Theorem healthy_iff_no_issue (r o : Q) :
  (risk_level (risk_engine (Fin r)) = "🟢 Healthy" <->
   diagnosis_engine (Fin r) (Fin o) =
   "No major structural performance issue detected.") /\
  (risk_level (risk_engine (Fin r)) = "🟢 Healthy" <-> 0 <= r) /\
  (risk_level (risk_engine (Fin r)) <> "🟢 Healthy" <->
   diagnosis_engine (Fin r) (Fin o) = declined_together \/
   diagnosis_engine (Fin r) (Fin o) = pricing_issue).
Proof.
  pose proof (risk_healthy_iff r) as Hr.
  pose proof (diagnosis_no_issue_iff r o) as Hd.
  pose proof (diagnosis_decline_iff r o) as Hc.
  split; [rewrite Hr; symmetry; exact Hd|].
  split; [exact Hr|].
  rewrite Hr. symmetry. exact Hc.
Qed.

(** ** Rounding to the nearest integer *)

Lemma rint_comp (p q : Q) : p == q -> rint p = rint q.
Proof.
  intros E. unfold rint.
  rewrite (Qfloor_comp _ _ E).
  assert (E' : p - inject_Z (Qfloor q) == q - inject_Z (Qfloor q))
    by (rewrite E; reflexivity).
  rewrite (Qcompare_comp _ _ E' (1 # 2) (1 # 2) (Qeq_refl _)).
  reflexivity.
Qed.

Lemma rint_floor (q : Q) :
  (Qfloor q <= rint q <= Qfloor q + 1)%Z.
Proof.
  unfold rint.
  destruct (Qcompare _ _); [destruct (Z.even _)| |]; lia.
Qed.

Lemma Qfloor_frac (q : Q) :
  0 <= q - inject_Z (Qfloor q) /\ q - inject_Z (Qfloor q) < 1.
Proof.
  pose proof (Qfloor_le q) as H1.
  pose proof (Qlt_floor q) as H2.
  rewrite inject_Z_plus in H2. change (inject_Z 1) with 1 in H2.
  split; lra.
Qed.

Lemma rint_mono (p q : Q) : p <= q -> (rint p <= rint q)%Z.
Proof.
  intros H.
  pose proof (Qfloor_resp_le _ _ H) as Hf.
  destruct (Z.eq_dec (Qfloor p) (Qfloor q)) as [E|N].
  - unfold rint. rewrite E.
    destruct (Qcompare_spec (p - inject_Z (Qfloor q)) (1 # 2)) as [Hp|Hp|Hp];
    destruct (Qcompare_spec (q - inject_Z (Qfloor q)) (1 # 2)) as [Hq|Hq|Hq];
      try (destruct (Z.even (Qfloor q))); try lia; exfalso; lra.
  - pose proof (rint_floor p). pose proof (rint_floor q). lia.
Qed.

Lemma rint_nonneg (q : Q) : 0 <= q -> (0 <= rint q)%Z.
Proof.
  intros H. pose proof (Qfloor_resp_le _ _ H) as Hf.
  change (Qfloor 0) with 0%Z in Hf.
  pose proof (rint_floor q). lia.
Qed.

Lemma rint_inject_Z (z : Z) : rint (inject_Z z) = z.
Proof.
  unfold rint. rewrite Qfloor_Z.
  destruct (Qcompare_spec (inject_Z z - inject_Z z) (1 # 2)) as [H|H|H];
    try reflexivity; exfalso; lra.
Qed.

(** The rounded value is a nearest integer. *)
Lemma rint_nearest (q : Q) : Qabs (inject_Z (rint q) - q) <= 1 # 2.
Proof.
  destruct (Qfloor_frac q) as [H0 H1].
  apply Qabs_Qle_condition. unfold rint.
  destruct (Qcompare_spec (q - inject_Z (Qfloor q)) (1 # 2)) as [H|H|H];
    [destruct (Z.even (Qfloor q))| |];
    rewrite ?inject_Z_plus; change (inject_Z 1) with 1; split; lra.
Qed.

(** ** Risk score *)

Lemma weighted_sum_Fin (r o a : Q) :
  weighted_sum (Fin r) (Fin o) (Fin a) =
  Fin (Qabs r * 2 + Qabs o * (3 # 2) + Qabs a * (6 # 5)).
Proof. reflexivity. Qed.

Lemma weighted_sum_nonneg (r o a : Q) :
  0 <= Qabs r * 2 + Qabs o * (3 # 2) + Qabs a * (6 # 5).
Proof.
  pose proof (Qabs_nonneg r). pose proof (Qabs_nonneg o).
  pose proof (Qabs_nonneg a). lra.
Qed.



Lemma risk_score_le_mono (r o a r' o' a' : Q) :
  Qabs r <= Qabs r' -> Qabs o <= Qabs o' -> Qabs a <= Qabs a' ->
  score_le (risk_score (Fin r) (Fin o) (Fin a))
           (risk_score (Fin r') (Fin o') (Fin a')).
Proof.
  intros Hr Ho Ha.
  change (Z.min (rint (Qabs r * 2 + Qabs o * (3 # 2) + Qabs a * (6 # 5))) 100
          <= Z.min (rint (Qabs r' * 2 + Qabs o' * (3 # 2) + Qabs a' * (6 # 5))) 100)%Z.
  apply Z.min_le_compat_r, rint_mono. lra.
Qed.



Local Close Scope string_scope.

(** ** Positional reads *)

Lemma iloc_neg {A : Type} (s : list A) (k : nat) :
  (0 < k <= List.length s)%nat ->
  iloc s (- Z.of_nat k) =
  match nth_error s (List.length s - k) with
  | Some a => Ok a
  | None => Raise IndexError
  end.
Proof.
  intros H. unfold iloc.
  replace (- Z.of_nat k <? 0)%Z with true by (symmetry; apply Z.ltb_lt; lia).
  replace ((0 <=? - Z.of_nat k + Z.of_nat (List.length s))
           && (- Z.of_nat k + Z.of_nat (List.length s) <? Z.of_nat (List.length s)))%Z
    with true
    by (symmetry; apply andb_true_iff; split;
        [apply Z.leb_le | apply Z.ltb_lt]; lia).
  replace (Z.to_nat (- Z.of_nat k + Z.of_nat (List.length s)))
    with (List.length s - k)%nat by lia.
  reflexivity.
Qed.

Lemma iloc_neg_short {A : Type} (s : list A) (k : nat) :
  (List.length s < k)%nat -> iloc s (- Z.of_nat k) = Raise IndexError.
Proof.
  intros H. unfold iloc.
  replace (- Z.of_nat k <? 0)%Z with true by (symmetry; apply Z.ltb_lt; lia).
  replace (0 <=? - Z.of_nat k + Z.of_nat (List.length s))%Z with false
    by (symmetry; apply Z.leb_gt; lia).
  reflexivity.
Qed.

Lemma iloc_last {A : Type} (s : list A) (p c : A) :
  iloc (s ++ [p; c]) (-1) = Ok c.
Proof.
  change (-1)%Z with (- Z.of_nat 1)%Z.
  rewrite (iloc_neg (s ++ [p; c]) 1) by (rewrite length_app; simpl; lia).
  rewrite length_app. simpl List.length.
  replace (List.length s + 2 - 1)%nat with (List.length s + 1)%nat by lia.
  rewrite nth_error_app2 by lia.
  replace (List.length s + 1 - List.length s)%nat with 1%nat by lia.
  reflexivity.
Qed.

Lemma iloc_before_last {A : Type} (s : list A) (p c : A) :
  iloc (s ++ [p; c]) (-2) = Ok p.
Proof.
  change (-2)%Z with (- Z.of_nat 2)%Z.
  rewrite (iloc_neg (s ++ [p; c]) 2) by (rewrite length_app; simpl; lia).
  rewrite length_app. simpl List.length.
  replace (List.length s + 2 - 2)%nat with (List.length s) by lia.
  rewrite nth_error_app2 by lia.
  rewrite Nat.sub_diag. reflexivity.
Qed.

Lemma column_app {A : Type} (f : Row -> A) cols (older : list Row) (p c : Row) :
  column f (mkDataFrame cols (older ++ [p; c])) = map f older ++ [f p; f c].
Proof. unfold column. simpl. rewrite map_app. reflexivity. Qed.

(** A table of two lines or more ends with a previous and a current line. *)
Lemma last_two_rows (l : list Row) :
  (2 <= List.length l)%nat -> exists older p c, l = older ++ [p; c].
Proof.
  intros H.
  destruct (exists_last (l := l)) as (l1 & c & ->).
  { intros ->. simpl in H. lia. }
  rewrite length_app in H. simpl in H.
  destruct (exists_last (l := l1)) as (older & p & ->).
  { intros ->. simpl in H. lia. }
  exists older, p, c. rewrite <- app_assoc. reflexivity.
Qed.

(** What the calculation returns on a table that ends with the lines
    [p] and [c]. *)
Lemma kpi_calculations_last_two cols (older : list Row) (p c : Row) :
  kpi_calculations (mkDataFrame cols (older ++ [p; c])) =
  Ok (mkMetricSnapshot
        (Revenue c) (Revenue p)
        (pct_change (Fin (Revenue c)) (Fin (Revenue p)))
        (Orders c) (Orders p)
        (pct_change (Fin (Orders c)) (Fin (Orders p)))
        (div (Fin (Revenue c)) (Fin (Orders c)))
        (div (Fin (Revenue p)) (Fin (Orders p)))
        (pct_change (div (Fin (Revenue c)) (Fin (Orders c)))
                    (div (Fin (Revenue p)) (Fin (Orders p))))).
Proof.
  unfold kpi_calculations. rewrite !column_app.
  rewrite !iloc_last, !iloc_before_last. reflexivity.
Qed.

Lemma is_zero_true (q : Q) : is_zero q = true <-> q == 0.
Proof. apply Qeq_bool_iff. Qed.

Lemma is_zero_false (q : Q) : is_zero q = false <-> ~ q == 0.
Proof. rewrite <- is_zero_true. symmetry. apply not_true_iff_false. Qed.

Lemma pct_change_Fin (c p : Q) :
  ~ p == 0 -> pct_change (Fin c) (Fin p) = Fin ((c - p) / p * 100).
Proof.
  intros H. unfold pct_change, sub. simpl.
  apply is_zero_false in H. rewrite H. reflexivity.
Qed.

(** ** Metric calculator *)



(** ** Division by zero *)

(** The quotient of [x] by zero. *)
Lemma div_zero (x : float) (z : Q) :
  z == 0 ->
  div x (Fin z) =
  match x with
  | Fin a =>
      match a ?= 0 with Gt => PInf | Lt => NInf | Eq => NaN end
  | other => other
  end.
Proof.
  intros Hz.
  assert (Ez : is_zero z = true) by (apply is_zero_true; exact Hz).
  assert (En : is_neg z = false).
  { unfold is_neg. apply negb_false_iff, Qle_bool_iff. lra. }
  destruct x as [a| | |]; simpl; rewrite ?Ez; unfold inf_signed;
    rewrite ?En; try reflexivity.
  destruct (Qcompare_spec a 0) as [H|H|H].
  - apply is_zero_true in H. rewrite H. reflexivity.
  - assert (E : is_zero a = false) by (apply is_zero_false; lra).
    rewrite E. unfold is_neg.
    assert (E' : Qle_bool 0 a = false).
    { apply not_true_iff_false. rewrite Qle_bool_iff. lra. }
    rewrite E'. reflexivity.
  - assert (E : is_zero a = false) by (apply is_zero_false; lra).
    rewrite E. unfold is_neg.
    assert (E' : Qle_bool 0 a = true) by (apply Qle_bool_iff; lra).
    rewrite E'. reflexivity.
Qed.

(** The percentage change from a previous value of zero: the quotient by
    zero of the current value, and never a finite number. *)
Lemma pct_change_zero (x : float) (z : Q) :
  z == 0 ->
  pct_change x (Fin z) =
  match x with
  | Fin a =>
      match a ?= 0 with Gt => PInf | Lt => NInf | Eq => NaN end
  | other => other
  end.
Proof.
  intros Hz. unfold pct_change.
  assert (Es : sub x (Fin z) =
               match x with Fin a => Fin (a + - z) | other => other end)
    by (destruct x; reflexivity).
  rewrite Es. destruct x as [a| | |].
  - rewrite (div_zero _ z Hz).
    assert (Ea : a + - z == a) by (rewrite Hz; ring).
    rewrite (Qcompare_comp _ _ Ea 0 0 (Qeq_refl 0)).
    destruct (a ?= 0); reflexivity.
  - rewrite (div_zero _ z Hz). reflexivity.
  - rewrite (div_zero _ z Hz). reflexivity.
  - reflexivity.
Qed.




(** The infinity is met again by the risk score, where [round] raises. *)
Lemma zero_previous_value_downstream :
  app (Some df_zero_revenue) false = (page_header, Failed OverflowError) /\
  app (Some df_zero_orders) false = (page_header, Failed ValueError).
Proof. split; reflexivity. Qed.

(** ** Tables of fewer than two lines *)

Lemma kpi_calculations_short (df : DataFrame) :
  (len df < 2)%nat -> kpi_calculations df = Raise IndexError.
Proof.
  intros H. unfold kpi_calculations.
  destruct (iloc (column Revenue df) (-1)) as [v|e] eqn:E1.
  - simpl. change (-2)%Z with (- Z.of_nat 2)%Z.
    rewrite iloc_neg_short; [reflexivity|].
    unfold column. rewrite length_map. exact H.
  - simpl. unfold iloc in E1.
    destruct (_ && _)%bool; [destruct (nth_error _ _)|];
      congruence.
Qed.

(** C2 (as the code has it).  When the required columns are present and
    the table has fewer than two lines, the run fails with the IndexError
    of the first positional read that is out of range: the read of the
    current revenue on an empty table, and on a table of one line the read
    of the previous revenue, once the current revenue has been read.  The
    page then holds the header alone: no KPI is shown. *)
Theorem short_table_fails (df : DataFrame) (button : bool) :
  issubset required_columns (columns df) = true ->
  (len df < 2)%nat ->
  app (Some df) button = (page_header, Failed IndexError) /\
  forallb (fun w => negb (shows_kpi w)) (fst (app (Some df) button)) = true /\
  (len df = 0%nat -> iloc (column Revenue df) (-1) = Raise IndexError) /\
  (forall r, rows df = [r] ->
     iloc (column Revenue df) (-1) = Ok (Revenue r) /\
     iloc (column Revenue df) (-2) = Raise IndexError).
Proof.
  intros Hc Hn.
  assert (E : app (Some df) button = (page_header, Failed IndexError)).
  { unfold app, engine. rewrite Hc, (kpi_calculations_short df Hn).
    reflexivity. }
  split; [exact E|]. split; [rewrite E; reflexivity|]. split.
  - intros H0. change (-1)%Z with (- Z.of_nat 1)%Z.
    apply iloc_neg_short. unfold column. rewrite length_map.
    unfold len in H0. lia.
  - intros r Hr. unfold column. rewrite Hr. split; reflexivity.
Qed.

Lemma short_table_fails_witness :
  app (Some df_one_row) true = (page_header, Failed IndexError) /\
  app (Some df_no_row) true = (page_header, Failed IndexError).
Proof.
  split.
  - apply (short_table_fails df_one_row true);
      [reflexivity | unfold len; simpl; lia].
  - apply (short_table_fails df_no_row true);
      [reflexivity | unfold len; simpl; lia].
Defined.

(** C2 fails as stated: on a table of one line with the required columns
    the exception that ends the run is IndexError, not
    InsufficientDataError, and the current revenue has been read before
    it is raised. *)
Lemma one_row_counterexample :
  issubset required_columns (columns df_one_row) = true /\
  len df_one_row = 1%nat /\
  app (Some df_one_row) false = (page_header, Failed IndexError) /\
  exn_name IndexError <> "InsufficientDataError"%string /\
  raises "InsufficientDataError" (engine df_one_row) = false /\
  iloc (column Revenue df_one_row) (-1) = Ok 1000.
Proof.
  repeat split. discriminate.
Qed.

(** ** Sums over a series *)


Lemma Qnat_S (n : nat) : Qnat (S n) == Qnat n + 1.
Proof.
  unfold Qnat. rewrite Nat2Z.inj_succ, <- Z.add_1_r, inject_Z_plus.
  reflexivity.
Qed.

Lemma Qnat_le (m n : nat) : (m <= n)%nat -> Qnat m <= Qnat n.
Proof.
  intros H. unfold Qnat. rewrite <- Zle_Qle. lia.
Qed.

Lemma Qsum_app (l l' : list Q) : Qsum (l ++ l') == Qsum l + Qsum l'.
Proof.
  induction l as [|x l IH]; simpl.
  - ring.
  - rewrite IH. ring.
Qed.

Lemma arange_S (n : nat) : arange (S n) = arange n ++ [Qnat n].
Proof.
  unfold arange. rewrite seq_S, map_app. reflexivity.
Qed.

Lemma length_arange (n : nat) : List.length (arange n) = n.
Proof. unfold arange. rewrite length_map, length_seq. reflexivity. Qed.

Lemma dot_app (xs xs' ys ys' : list Q) :
  List.length xs = List.length ys ->
  dot (xs ++ xs') (ys ++ ys') == dot xs ys + dot xs' ys'.
Proof.
  revert ys. induction xs as [|x xs IH]; intros [|y ys] H;
    try discriminate H.
  - unfold dot. simpl. ring.
  - injection H as H. specialize (IH ys H).
    unfold dot in *. simpl. rewrite IH. ring.
Qed.

Lemma Qsum_arange (n : nat) :
  Qsum (arange n) == Qnat n * (Qnat n - 1) / 2.
Proof.
  induction n as [|n IH].
  - reflexivity.
  - rewrite arange_S, Qsum_app, IH, Qnat_S. simpl. field.
Qed.

Lemma dot_arange (n : nat) :
  dot (arange n) (arange n) ==
  (Qnat n - 1) * Qnat n * (2 * Qnat n - 1) / 6.
Proof.
  induction n as [|n IH].
  - reflexivity.
  - rewrite arange_S, dot_app by reflexivity.
    rewrite IH, Qnat_S. unfold dot. simpl. field.
Qed.

(** The determinant of the normal equations over [0, ..., n-1]. *)
Lemma det_arange (n : nat) :
  Qnat n * dot (arange n) (arange n) - Qsum (arange n) * Qsum (arange n) ==
  Qnat n * Qnat n * (Qnat n - 1) * (Qnat n + 1) / 12.
Proof. rewrite dot_arange, Qsum_arange. field. Qed.

Lemma det_arange_pos (n : nat) :
  (2 <= n)%nat ->
  0 < Qnat n * dot (arange n) (arange n) - Qsum (arange n) * Qsum (arange n).
Proof.
  intros H. rewrite det_arange.
  pose proof (Qnat_le 2 n H) as Hn. change (Qnat 2) with 2 in Hn.
  assert (H1 : 0 < Qnat n) by lra.
  assert (H2 : 0 < Qnat n - 1) by lra.
  assert (H3 : 0 < Qnat n + 1) by lra.
  pose proof (Qmult_lt_0_compat _ _ H1 H1) as P1.
  pose proof (Qmult_lt_0_compat _ _ P1 H2) as P2.
  pose proof (Qmult_lt_0_compat _ _ P2 H3) as P3.
  apply Qlt_shift_div_l; lra.
Qed.

(** ** Series on a line *)

Section Line.

Variables a b : Q.

(** [ys] holds the ordinates of the line at the abscissas [xs]. *)
Let line_at (x y : Q) : Prop := y == a * x + b.

Lemma Qsum_line (xs ys : list Q) :
  Forall2 line_at xs ys ->
  Qsum ys == a * Qsum xs + b * Qnat (List.length xs).
Proof.
  induction 1 as [|x y xs ys Hxy _ IH]; unfold line_at in *.
  - simpl. change (Qnat 0) with 0. ring.
  - simpl Qsum. simpl List.length. rewrite IH, Hxy, Qnat_S. ring.
Qed.

Lemma dot_line (xs ys : list Q) :
  Forall2 line_at xs ys ->
  dot xs ys == a * dot xs xs + b * Qsum xs.
Proof.
  induction 1 as [|x y xs ys Hxy _ IH]; unfold line_at in *.
  - unfold dot. simpl. ring.
  - unfold dot in *. simpl. rewrite IH, Hxy. ring.
Qed.

Lemma polyfit1_line (xs ys : list Q) :
  Forall2 line_at xs ys ->
  ~ Qnat (List.length xs) == 0 ->
  ~ Qnat (List.length xs) * dot xs xs - Qsum xs * Qsum xs == 0 ->
  fst (polyfit1 xs ys) == a /\ snd (polyfit1 xs ys) == b.
Proof.
  intros H Hn Hd. unfold polyfit1. cbn [fst snd]. fold (Qnat (List.length xs)).
  pose proof (Qsum_line xs ys H) as Es.
  pose proof (dot_line xs ys H) as Ed.
  assert (Ea : (Qnat (List.length xs) * dot xs ys - Qsum xs * Qsum ys)
               / (Qnat (List.length xs) * dot xs xs - Qsum xs * Qsum xs) == a).
  { rewrite Es, Ed. field. exact Hd. }
  split; [exact Ea|].
  rewrite Ea, Es. field. exact Hn.
Qed.

Lemma on_line_Forall2 (l : list Row) (s : nat) :
  (forall i r, nth_error l i = Some r -> Revenue r == a * Qnat (s + i) + b) ->
  Forall2 line_at (map Qnat (seq s (List.length l))) (map Revenue l).
Proof.
  revert s. induction l as [|r l IH]; intros s H; simpl.
  - constructor.
  - constructor.
    + unfold line_at. rewrite (H 0%nat r eq_refl), Nat.add_0_r. reflexivity.
    + apply IH. intros i r' Hi.
      rewrite (H (S i) r' Hi), Nat.add_succ_r. reflexivity.
Qed.

End Line.

(** ** The fit is the least-squares line *)

Lemma sse_expand (xs ys : list Q) (a b : Q) :
  List.length xs = List.length ys ->
  sse xs ys a b ==
  dot ys ys - 2 * a * dot xs ys - 2 * b * Qsum ys
  + a * a * dot xs xs + 2 * a * b * Qsum xs + b * b * Qnat (List.length xs).
Proof.
  revert ys. induction xs as [|x xs IH]; intros [|y ys] H;
    try discriminate H.
  - unfold sse, dot. simpl. change (Qnat 0) with 0. ring.
  - injection H as H. specialize (IH ys H).
    unfold sse, dot in *. simpl combine. simpl map. simpl Qsum.
    simpl List.length. rewrite IH, Qnat_S. simpl fst. simpl snd. ring.
Qed.

Lemma Qsum_squares_nonneg (f : Q -> Q) (xs : list Q) :
  0 <= Qsum (map (fun x => f x * f x) xs).
Proof.
  induction xs as [|x xs IH]; simpl.
  - apply Qle_refl.
  - assert (H : 0 <= f x * f x) by nra.
    lra.
Qed.

Lemma Qsum_squares_expand (da db : Q) (xs : list Q) :
  Qsum (map (fun x => (da * x + db) * (da * x + db)) xs) ==
  da * da * dot xs xs + 2 * da * db * Qsum xs + db * db * Qnat (List.length xs).
Proof.
  induction xs as [|x xs IH].
  - unfold dot. simpl. change (Qnat 0) with 0. ring.
  - unfold dot in *. simpl map. simpl Qsum. simpl List.length.
    rewrite IH, Qnat_S. simpl fst. simpl snd. ring.
Qed.

(** A line that solves the normal equations has the least sum of squared
    residuals. *)
Lemma sse_normal (xs ys : list Q) (a0 b0 a b : Q) :
  List.length xs = List.length ys ->
  a0 * dot xs xs + b0 * Qsum xs == dot xs ys ->
  a0 * Qsum xs + b0 * Qnat (List.length xs) == Qsum ys ->
  sse xs ys a0 b0 <= sse xs ys a b.
Proof.
  intros Hl E1 E2.
  pose proof (Qsum_squares_nonneg (fun x => (a - a0) * x + (b - b0)) xs) as Hn.
  rewrite Qsum_squares_expand in Hn.
  rewrite !sse_expand by exact Hl.
  rewrite <- E1, <- E2.
  set (sxx := dot xs xs) in *. set (sx := Qsum xs) in *.
  set (n := Qnat (List.length xs)) in *. set (syy := dot ys ys).
  apply Qle_minus_iff. apply Qle_minus_iff in Hn.
  setoid_replace
    (syy - 2 * a * (a0 * sxx + b0 * sx) - 2 * b * (a0 * sx + b0 * n)
     + a * a * sxx + 2 * a * b * sx + b * b * n
     + - (syy - 2 * a0 * (a0 * sxx + b0 * sx) - 2 * b0 * (a0 * sx + b0 * n)
          + a0 * a0 * sxx + 2 * a0 * b0 * sx + b0 * b0 * n))
    with ((a - a0) * (a - a0) * sxx + 2 * (a - a0) * (b - b0) * sx
          + (b - b0) * (b - b0) * n + - 0) by ring.
  exact Hn.
Qed.

Lemma polyfit1_normal (xs ys : list Q) :
  ~ Qnat (List.length xs) == 0 ->
  ~ Qnat (List.length xs) * dot xs xs - Qsum xs * Qsum xs == 0 ->
  fst (polyfit1 xs ys) * dot xs xs + snd (polyfit1 xs ys) * Qsum xs
  == dot xs ys /\
  fst (polyfit1 xs ys) * Qsum xs
  + snd (polyfit1 xs ys) * Qnat (List.length xs) == Qsum ys.
Proof.
  intros Hn Hd. unfold polyfit1. cbn [fst snd].
  fold (Qnat (List.length xs)).
  split; field; split; assumption.
Qed.

(** The model of [np.polyfit(x, y, 1)] is the least-squares line: no line
    has a smaller sum of squared residuals. *)
Lemma polyfit1_least_squares (xs ys : list Q) (a b : Q) :
  List.length xs = List.length ys ->
  ~ Qnat (List.length xs) == 0 ->
  ~ Qnat (List.length xs) * dot xs xs - Qsum xs * Qsum xs == 0 ->
  sse xs ys (fst (polyfit1 xs ys)) (snd (polyfit1 xs ys)) <= sse xs ys a b.
Proof.
  intros Hl Hn Hd.
  destruct (polyfit1_normal xs ys Hn Hd) as [E1 E2].
  apply sse_normal; assumption.
Qed.

(** ** Forecaster *)

Lemma arange_nonzero (n : nat) :
  (2 <= n)%nat ->
  ~ Qnat (List.length (arange n)) == 0 /\
  ~ Qnat (List.length (arange n)) * dot (arange n) (arange n)
    - Qsum (arange n) * Qsum (arange n) == 0.
Proof.
  intros H. rewrite length_arange.
  pose proof (Qnat_le 2 n H) as Hn. change (Qnat 2) with 2 in Hn.
  pose proof (det_arange_pos n H) as Hd.
  split; intros E; rewrite E in *; lra.
Qed.


Lemma on_line_df_linear : on_line 100 100 df_linear.
Proof.
  intros [|[|[|[|i]]]] r H; simpl in H;
    try (injection H as <-; reflexivity);
    destruct i; discriminate H.
Qed.

Lemma on_line_df_quarters : on_line (1 # 4) (1 # 4) df_quarters.
Proof.
  intros [|[|i]] r H; simpl in H;
    try (injection H as <-; reflexivity);
    destruct i; discriminate H.
Qed.


(** The two series of the specification. *)
Example forecast_100_200_300_400 :
  forecast_revenue (revenue_forecast df_linear) = 500.
Proof. reflexivity. Qed.

Example forecast_100_100_100 :
  forecast_revenue (revenue_forecast df_constant) = 100.
Proof. reflexivity. Qed.


(** ** Runs of the engine *)

(** The score is computed only from finite changes: [round] raises on
    anything else. *)
Lemma risk_score_Ok_finite (m o a : float) (s : Z) :
  risk_score m o a = Ok s ->
  exists r o' a', m = Fin r /\ o = Fin o' /\ a = Fin a'.
Proof.
  destruct m as [r| | |], o as [o'| | |], a as [a'| | |];
    intros H; try discriminate H.
  exists r, o', a'. repeat split.
Qed.

(** In every run that reaches the display the three changes are finite,
    so the level is Healthy exactly when the diagnosis reports no issue. *)
Lemma engine_healthy_iff_no_issue (df : DataFrame) (k : Kpis) :
  engine df = Ok k ->
  (risk_level (risk k) = "🟢 Healthy"%string <-> diagnosis k = no_issue).
Proof.
  intros H. unfold engine in H.
  destruct (kpi_calculations df) as [m|e]; simpl in H; [|discriminate].
  destruct (risk_score _ _ _) as [s|e] eqn:Es; simpl in H; [|discriminate].
  injection H as <-. simpl.
  destruct (risk_score_Ok_finite _ _ _ _ Es) as (r & o & a & -> & -> & _).
  rewrite risk_healthy_iff. symmetry. apply diagnosis_no_issue_iff.
Qed.

(** A change that is NaN compares false with everything: a revenue decline
    with an order change of NaN is Medium Risk with the diagnosis of no
    issue.  No run displays it, the score raising first. *)
Example nan_order_change :
  risk_engine (Fin (-5)) = medium_risk /\
  diagnosis_engine (Fin (-5)) NaN = no_issue /\
  risk_score (Fin (-5)) NaN (Fin 0) = Raise ValueError.
Proof. repeat split. Qed.

(** ** The scenario of the specification *)

Example scenario_run :
  exists k,
    engine df_scenario = Ok k /\
    Float.eq (mom_change (metrics k)) (Fin (-10)) /\
    Float.eq (order_change (metrics k)) (Fin 0) /\
    Float.eq (aov_change (metrics k)) (Fin (-10)) /\
    risk k = high_risk /\
    diagnosis k = pricing_issue /\
    score k = 32%Z /\
    ai_commentary k = commentary_high.
Proof.
  eexists. split; [reflexivity|]. repeat split; vm_compute; reflexivity.
Qed.

(** * Further properties of the script *)

(** ** The header check *)

Lemma issubset_true_iff (a b : list string) :
  issubset a b = true <-> (forall c, In c a -> In c b).
Proof.
  unfold issubset. rewrite forallb_forall.
  split; intros H c Hc.
  - apply H in Hc. apply existsb_exists in Hc.
    destruct Hc as (x & Hx & E). apply String.eqb_eq in E. subst. exact Hx.
  - apply existsb_exists. exists c. split; [apply H; exact Hc|].
    apply String.eqb_refl.
Qed.

Lemma issubset_false_iff (a b : list string) :
  issubset a b = false <-> (exists c, In c a /\ ~ In c b).
Proof.
  split.
  - unfold issubset. induction a as [|x a IH]; simpl; [discriminate|].
    intros H. apply andb_false_iff in H. destruct H as [H|H].
    + exists x. split; [left; reflexivity|].
      intros Hin. apply not_true_iff_false in H. apply H.
      apply existsb_exists. exists x. split; [exact Hin|apply String.eqb_refl].
    + destruct (IH H) as (c & Hc & Hn). exists c. split; [right|]; assumption.
  - intros (c & Hc & Hn). apply not_true_iff_false. intros H.
    apply Hn. exact (proj1 (issubset_true_iff a b) H c Hc).
Qed.

(** X1.  The run stops on the sidebar message "CSV must contain Month,
    Revenue, and Orders columns." exactly when one of the three column
    names is absent from the header of the uploaded table, whatever its
    lines and the button; extra columns and the order of the columns do not
    matter, and nothing else is drawn after the page header. *)
Theorem missing_column_stops (df : DataFrame) (button : bool) :
  (exists c, In c required_columns /\ ~ In c (columns df)) <->
  app (Some df) button =
  ((page_header
    ++ [StSidebarError "CSV must contain Month, Revenue, and Orders columns."])%list,
   Stopped).
Proof.
  rewrite <- issubset_false_iff. unfold app.
  destruct (issubset required_columns (columns df)); simpl.
  - split; [discriminate|].
    destruct (engine df); intros H; discriminate H.
  - split; reflexivity.
Qed.

Lemma missing_column_stops_witness :
  app (Some (mkDataFrame ["Month"; "revenue"; "Orders"]%string
               [mkRow "Jan" 1000 50; mkRow "Feb" 900 50])) true =
  ((page_header
    ++ [StSidebarError "CSV must contain Month, Revenue, and Orders columns."])%list,
   Stopped).
Proof.
  apply missing_column_stops. exists "Revenue"%string.
  split; [right; left; reflexivity|].
  simpl. intros [H|[H|[H|[]]]]; discriminate H.
Defined.

(** ** When the metric calculation raises *)

Lemma kpi_calculations_long (df : DataFrame) :
  (2 <= len df)%nat -> exists m, kpi_calculations df = Ok m.
Proof.
  destruct df as [cols l]. unfold len. simpl. intros H.
  destruct (last_two_rows l H) as (older & p & c & ->).
  eexists. apply kpi_calculations_last_two.
Qed.


(** ** Which changes are finite *)

Lemma div_Fin (a b : Q) : ~ b == 0 -> div (Fin a) (Fin b) = Fin (a / b).
Proof.
  intros H. simpl. apply is_zero_false in H. rewrite H. reflexivity.
Qed.

Lemma div_zero_not_finite (x : float) (z : Q) :
  z == 0 -> is_finite (div x (Fin z)) = false.
Proof.
  intros H. rewrite (div_zero x z H).
  destruct x as [a| | |]; try reflexivity. destruct (a ?= 0); reflexivity.
Qed.

Lemma pct_change_zero_not_finite (x : float) (z : Q) :
  z == 0 -> is_finite (pct_change x (Fin z)) = false.
Proof.
  intros H. rewrite (pct_change_zero x z H).
  destruct x as [a| | |]; try reflexivity. destruct (a ?= 0); reflexivity.
Qed.

Lemma pct_change_not_finite_l (x : float) (z : Q) :
  is_finite x = false -> is_finite (pct_change x (Fin z)) = false.
Proof.
  destruct x as [a| | |]; intros H; try discriminate H;
    unfold pct_change, sub; simpl; unfold inf_signed;
    destruct (is_neg z); reflexivity.
Qed.

(** The three changes between the lines [p] and [c] are finite exactly
    when neither the previous revenue nor an order count used as a divisor
    is zero. *)
Lemma changes_finite_iff (p c : Row) :
  is_finite (pct_change (Fin (Revenue c)) (Fin (Revenue p)))
  && is_finite (pct_change (Fin (Orders c)) (Fin (Orders p)))
  && is_finite (pct_change (div (Fin (Revenue c)) (Fin (Orders c)))
                           (div (Fin (Revenue p)) (Fin (Orders p)))) = true
  <-> ~ Revenue p == 0 /\ ~ Orders p == 0 /\ ~ Orders c == 0.
Proof.
  split.
  - intros H. apply andb_true_iff in H. destruct H as [H H3].
    apply andb_true_iff in H. destruct H as [H1 H2].
    assert (Hr : ~ Revenue p == 0).
    { intros E. rewrite (pct_change_zero_not_finite _ _ E) in H1.
      discriminate H1. }
    assert (Ho : ~ Orders p == 0).
    { intros E. rewrite (pct_change_zero_not_finite _ _ E) in H2.
      discriminate H2. }
    split; [exact Hr|]. split; [exact Ho|].
    intros E. rewrite (div_Fin _ _ Ho) in H3.
    rewrite pct_change_not_finite_l in H3; [discriminate H3|].
    apply div_zero_not_finite. exact E.
  - intros (Hr & Ho & Hc).
    assert (Ha : ~ Revenue p / Orders p == 0).
    { intros E. apply Hr.
      rewrite <- (Qmult_div_r (Revenue p) (Orders p)) by exact Ho.
      rewrite E. ring. }
    rewrite (div_Fin _ _ Ho), (div_Fin _ _ Hc), !pct_change_Fin by assumption.
    reflexivity.
Qed.

(** ** When the score raises *)

Lemma risk_score_returns_iff (m o a : float) :
  (exists s, risk_score m o a = Ok s) <->
  is_finite m && is_finite o && is_finite a = true.
Proof.
  destruct m, o, a; simpl; split; intros H;
    try reflexivity; try discriminate H;
    try (destruct H as (s & H); discriminate H).
  eexists. reflexivity.
Qed.

Lemma risk_score_raise_kind (m o a : float) (e : exn) :
  risk_score m o a = Raise e -> e = OverflowError \/ e = ValueError.
Proof.
  unfold risk_score. destruct (weighted_sum m o a); simpl; intros H;
    try discriminate H; injection H as <-; auto.
Qed.


(** ** The score ignores the direction of a change *)

Lemma Qabs_opp_eq (q : Q) : Qabs (- q) = Qabs q.
Proof. destruct q as [n d]. simpl. rewrite Z.abs_opp. reflexivity. Qed.

Lemma abs_neg (x : float) : abs (neg x) = abs x.
Proof.
  destruct x as [q| | |]; try reflexivity.
  unfold neg, abs. rewrite Qabs_opp_eq. reflexivity.
Qed.

(** X4.  The score is the same for a change and for its opposite: a rise
    of the revenue, of the orders or of the AOV weighs as much as a fall of
    the same size, also for the infinities and NaN. *)
Theorem risk_score_ignores_sign (m o a : float) :
  risk_score (neg m) o a = risk_score m o a /\
  risk_score m (neg o) a = risk_score m o a /\
  risk_score m o (neg a) = risk_score m o a /\
  risk_score (abs m) (abs o) (abs a) = risk_score m o a.
Proof.
  unfold risk_score, weighted_sum. rewrite !abs_neg.
  repeat split.
  assert (I : forall x, abs (abs x) = abs x).
  { intros [q| | |]; try reflexivity.
    unfold abs. f_equal. destruct q as [n d]. unfold Qabs.
    rewrite Z.abs_idemp. reflexivity. }
  rewrite !I. reflexivity.
Qed.

(** ** Runs of the engine on two lines or more *)

Lemma engine_last_two cols (older : list Row) (p c : Row) :
  engine (mkDataFrame cols (older ++ [p; c])) =
  let df := mkDataFrame cols (older ++ [p; c]) in
  let m := mkMetricSnapshot
             (Revenue c) (Revenue p)
             (pct_change (Fin (Revenue c)) (Fin (Revenue p)))
             (Orders c) (Orders p)
             (pct_change (Fin (Orders c)) (Fin (Orders p)))
             (div (Fin (Revenue c)) (Fin (Orders c)))
             (div (Fin (Revenue p)) (Fin (Orders p)))
             (pct_change (div (Fin (Revenue c)) (Fin (Orders c)))
                         (div (Fin (Revenue p)) (Fin (Orders p)))) in
  bind (risk_score (mom_change m) (order_change m) (aov_change m))
    (fun s =>
       Ok (mkKpis m (risk_engine (mom_change m))
             (diagnosis_engine (mom_change m) (order_change m)) s
             (revenue_forecast df)
             (ai_diagnosis_layer (mom_change m) (order_change m)
                (risk_level (risk_engine (mom_change m)))))).
Proof.
  unfold engine. rewrite kpi_calculations_last_two. reflexivity.
Qed.

Lemma engine_last_two_returns_iff cols (older : list Row) (p c : Row) :
  (exists k, engine (mkDataFrame cols (older ++ [p; c])) = Ok k) <->
  ~ Revenue p == 0 /\ ~ Orders p == 0 /\ ~ Orders c == 0.
Proof.
  rewrite engine_last_two. cbv zeta.
  cbn [mom_change order_change aov_change].
  rewrite <- changes_finite_iff, <- risk_score_returns_iff.
  destruct (risk_score _ _ _) as [s|e] eqn:E; simpl.
  - split; eauto.
  - split; intros (x & H); discriminate H.
Qed.

Lemma engine_raise_kind (df : DataFrame) (e : exn) :
  (2 <= len df)%nat -> engine df = Raise e ->
  e = OverflowError \/ e = ValueError.
Proof.
  intros L. unfold engine.
  destruct (kpi_calculations_long df L) as (m & ->). cbn [bind].
  destruct (risk_score _ _ _) as [s|e'] eqn:E; cbn [bind]; intros H;
    [discriminate H|].
  injection H as <-. apply (risk_score_raise_kind _ _ _ _ E).
Qed.



(** X6.  In every run of the engine that returns, the three changes are
    finite and the score is an integer between 0 and 100. *)
Theorem engine_score_bounds (df : DataFrame) (k : Kpis) :
  engine df = Ok k ->
  (0 <= score k <= 100)%Z /\
  is_finite (mom_change (metrics k)) = true /\
  is_finite (order_change (metrics k)) = true /\
  is_finite (aov_change (metrics k)) = true.
Proof.
  intros H. unfold engine in H.
  destruct (kpi_calculations df) as [m|e]; simpl in H; [|discriminate].
  destruct (risk_score _ _ _) as [s|e] eqn:Es; simpl in H; [|discriminate].
  injection H as <-. simpl.
  destruct (risk_score_Ok_finite _ _ _ _ Es) as (r & o & a & Er & Eo & Ea).
  rewrite Er, Eo, Ea in *. repeat split.
  - unfold risk_score in Es. rewrite weighted_sum_Fin in Es. simpl in Es.
    injection Es as <-.
    pose proof (rint_nonneg _ (weighted_sum_nonneg r o a)). lia.
  - unfold risk_score in Es. rewrite weighted_sum_Fin in Es. simpl in Es.
    injection Es as <-. lia.
Qed.

Lemma engine_score_bounds_witness :
  exists k, engine df_scenario = Ok k /\ (0 <= score k <= 100)%Z.
Proof.
  eexists. split; [reflexivity|].
  eapply (engine_score_bounds df_scenario). reflexivity.
Defined.

(** X7.  In every run of the engine that returns with the level High Risk,
    the score is at least 20: the revenue change alone, of 10 percent or
    more, weighs 20. *)
Theorem high_risk_score_at_least_20 (df : DataFrame) (k : Kpis) :
  engine df = Ok k ->
  risk k = high_risk ->
  (20 <= score k)%Z.
Proof.
  intros H Hh. unfold engine in H.
  destruct (kpi_calculations df) as [m|e]; simpl in H; [|discriminate].
  destruct (risk_score _ _ _) as [s|e] eqn:Es; simpl in H; [|discriminate].
  injection H as <-. simpl in *.
  destruct (risk_score_Ok_finite _ _ _ _ Es) as (r & o & a & Er & Eo & Ea).
  rewrite Er, Eo, Ea in *.
  assert (Hr : r <= -10).
  { unfold risk_engine in Hh. revert Hh. cmp_cases; simpl; intros Hh;
      try discriminate Hh; assumption. }
  unfold risk_score in Es. rewrite weighted_sum_Fin in Es. simpl in Es.
  injection Es as <-.
  assert (Hw : 20 <= Qabs r * 2 + Qabs o * (3 # 2) + Qabs a * (6 # 5)).
  { pose proof (Qabs_nonneg o). pose proof (Qabs_nonneg a).
    assert (10 <= Qabs r).
    { rewrite Qabs_neg by lra. lra. }
    lra. }
  pose proof (rint_mono _ _ Hw) as Hm.
  change 20 with (inject_Z 20) in Hm. rewrite rint_inject_Z in Hm. lia.
Qed.

Lemma high_risk_score_at_least_20_witness :
  exists k, engine df_scenario = Ok k /\ (20 <= score k)%Z.
Proof.
  eexists. split; [reflexivity|].
  eapply (high_risk_score_at_least_20 df_scenario); reflexivity.
Defined.

(** ** The page *)

(** X8.  The page is all or nothing: a run on an uploaded table either
    reaches its last line, the header check and the engine having
    succeeded, and the page is the header followed by the whole display; or
    it does not, and the page shows no KPI at all. *)
Theorem page_all_or_nothing (df : DataFrame) (button : bool) :
  (exists k,
     issubset required_columns (columns df) = true /\
     engine df = Ok k /\
     app (Some df) button = ((page_header ++ display df k button)%list, Done))
  \/
  (snd (app (Some df) button) <> Done /\
   (issubset required_columns (columns df) = false \/
    exists e, engine df = Raise e) /\
   forallb (fun w => negb (shows_kpi w)) (fst (app (Some df) button)) = true).
Proof.
  unfold app.
  destruct (issubset required_columns (columns df)); simpl.
  - destruct (engine df) as [k|e].
    + left. exists k. repeat split.
    + right. simpl. split; [discriminate|]. split; [right; eauto|reflexivity].
  - right. split; [discriminate|]. split; [left|]; reflexivity.
Qed.

(** X9.  The report button only adds the report: pressing it never changes
    how the run ends, and the page is the page of the run without the
    button with the title of the report and the report added; without a
    file, or when the run stops or fails, pressing it changes nothing. *)
Theorem button_only_adds_report (uploaded_file : option DataFrame) :
  snd (app uploaded_file true) = snd (app uploaded_file false) /\
  filter (fun w => negb (report_widget w)) (fst (app uploaded_file true))
  = fst (app uploaded_file false) /\
  (snd (app uploaded_file false) <> Done ->
   app uploaded_file true = app uploaded_file false) /\
  (snd (app uploaded_file false) = Done ->
   exists r, In (StReport r) (fst (app uploaded_file true)) /\
             ~ In (StReport r) (fst (app uploaded_file false))).
Proof.
  unfold app. destruct uploaded_file as [df|].
  - destruct (issubset required_columns (columns df)); simpl.
    + destruct (engine df) as [k|e]; simpl.
      * split; [reflexivity|]. split; [reflexivity|].
        split; [intros H; congruence|].
        intros _. exists (report k). split.
        -- do 16 right. left. reflexivity.
        -- intros H. repeat (destruct H as [H|H]; [discriminate H|]).
           exact H.
      * repeat split. intros H. discriminate H.
    + repeat split. intros H. discriminate H.
  - simpl. repeat split. intros H. discriminate H.
Qed.

(** X10.  On the page of a run that reaches its last line there are two
    traces in the one chart: the revenues against the months, and the trend
    line against the months followed by "Forecast", one point more; the
    projected revenue is the last point of the trend line, rounded. *)
Theorem chart_matches_forecast (df : DataFrame) (k : Kpis) (button : bool) :
  engine df = Ok k ->
  exists actual trend,
    charts (display df k button) = [[actual; trend]] /\
    trace_x actual = column Month df /\
    trace_y actual = column Revenue df /\
    trace_x trend = (column Month df ++ ["Forecast"%string])%list /\
    List.length (trace_y trend) = S (len df) /\
    List.length (trace_x trend) = List.length (trace_y trend) /\
    forecast_revenue (forecast k) = round0 (last (trace_y trend) 0) /\
    In (StNumber "Projected Next Month Revenue" (round0 (last (trace_y trend) 0)))
       (display df k button).
Proof.
  intros H. unfold engine in H.
  destruct (kpi_calculations df) as [m|e]; simpl in H; [|discriminate].
  destruct (risk_score _ _ _) as [s|e]; simpl in H; [|discriminate].
  injection H as <-.
  eexists _, _. split.
  { unfold charts, display. destruct button; reflexivity. }
  cbn [trace_x trace_y forecast coefficients].
  assert (L : List.length (column Month df ++ ["Forecast"%string]) = S (len df)).
  { rewrite length_app. unfold column, len. rewrite length_map. simpl. lia. }
  assert (E : last (map (poly1d (polyfit1 (arange (len df)) (column Revenue df)))
                      (arange (S (len df)))) 0
              = poly1d (polyfit1 (arange (len df)) (column Revenue df))
                  (inject_Z (Z.of_nat (len df)))).
  { rewrite arange_S, map_app. simpl map. apply last_last. }
  rewrite length_map, length_arange, !L.
  change (coefficients (revenue_forecast df))
    with (polyfit1 (arange (len df)) (column Revenue df)).
  rewrite E.
  repeat split.
  unfold display. cbn [forecast forecast_revenue revenue_forecast].
  do 10 right. left. reflexivity.
Qed.

Lemma chart_matches_forecast_witness :
  exists k actual trend,
    engine df_linear = Ok k /\
    charts (display df_linear k false) = [[actual; trend]] /\
    List.length (trace_y trend) = S (len df_linear) /\
    forecast_revenue (forecast k) = round0 (last (trace_y trend) 0).
Proof.
  assert (E : exists k, engine df_linear = Ok k) by (eexists; reflexivity).
  destruct E as (k & E).
  destruct (chart_matches_forecast df_linear k false E)
    as (actual & trend & H1 & _ & _ & _ & H5 & _ & H7 & _).
  exists k, actual, trend. repeat split; assumption.
Defined.

(** ** The three changes together *)

Lemma kpi_changes_Fin cols (older : list Row) (p c : Row) :
  ~ Revenue p == 0 -> ~ Orders p == 0 -> ~ Orders c == 0 ->
  kpi_calculations (mkDataFrame cols (older ++ [p; c])) =
  Ok (mkMetricSnapshot
        (Revenue c) (Revenue p)
        (Fin ((Revenue c - Revenue p) / Revenue p * 100))
        (Orders c) (Orders p)
        (Fin ((Orders c - Orders p) / Orders p * 100))
        (Fin (Revenue c / Orders c))
        (Fin (Revenue p / Orders p))
        (Fin ((Revenue c / Orders c - Revenue p / Orders p)
              / (Revenue p / Orders p) * 100))).
Proof.
  intros Hr Ho Hc. rewrite kpi_calculations_last_two.
  assert (Ha : ~ Revenue p / Orders p == 0).
  { intros E. apply Hr.
    rewrite <- (Qmult_div_r (Revenue p) (Orders p)) by exact Ho.
    rewrite E. ring. }
  rewrite (div_Fin _ _ Ho), (div_Fin _ _ Hc), !pct_change_Fin by assumption.
  reflexivity.
Qed.





(** ** The level and the diagnosis read on the table *)

Lemma pct_times (c p : Q) :
  ~ p == 0 -> (c - p) / p * 100 * p == (c - p) * 100.
Proof. intros H. field. exact H. Qed.

Lemma risk_engine_Fin_iff (d : Q) :
  (risk_engine (Fin d) = high_risk <-> d <= -10) /\
  (risk_engine (Fin d) = medium_risk <-> -10 < d /\ d < 0) /\
  (risk_engine (Fin d) = healthy <-> 0 <= d).
Proof.
  unfold risk_engine. cmp_cases; simpl;
    (split; [|split]); split; intros H;
    try discriminate H; try reflexivity; try lra.
Qed.

Lemma diagnosis_engine_Fin_iff (d o : Q) :
  (diagnosis_engine (Fin d) (Fin o) = declined_together <-> d < 0 /\ o < 0) /\
  (diagnosis_engine (Fin d) (Fin o) = pricing_issue <-> d < 0 /\ 0 <= o) /\
  (diagnosis_engine (Fin d) (Fin o) = no_issue <-> 0 <= d).
Proof.
  unfold diagnosis_engine, geb. cmp_cases; simpl;
    (split; [|split]); split; intros H;
    try discriminate H; try reflexivity; try lra.
Qed.







(** ** More on the forecast *)

Lemma rint_negative (q : Q) : q < - (1 # 2) -> (rint q < 0)%Z.
Proof.
  intros H. pose proof (rint_nearest q) as N.
  apply Qabs_Qle_condition in N. destruct N as [_ N].
  assert (L : inject_Z (rint q) < inject_Z 0)
    by (change (inject_Z 0) with 0; lra).
  rewrite <- Zlt_Qlt in L. exact L.
Qed.





(** ** Level, heading and commentary *)

(** X18.  The heading and the commentary follow the level, for every
    revenue change, finite or not: the engine answers one of the three
    levels, and the dispatch on the first character of its label picks the
    red heading and the contraction text for High Risk, the orange heading
    and the deceleration text for Medium Risk, the green heading and the
    stable text for Healthy. *)
Theorem level_heading_commentary (m rc oc : float) :
  (risk_engine m = high_risk /\
   risk_heading (risk_level (risk_engine m))
   = "<h3 style='color:red'>🔴 High Risk</h3>"%string /\
   ai_diagnosis_layer rc oc (risk_level (risk_engine m)) = commentary_high)
  \/
  (risk_engine m = medium_risk /\
   risk_heading (risk_level (risk_engine m))
   = "<h3 style='color:orange'>🟡 Medium Risk</h3>"%string /\
   ai_diagnosis_layer rc oc (risk_level (risk_engine m)) = commentary_medium)
  \/
  (risk_engine m = healthy /\
   risk_heading (risk_level (risk_engine m))
   = "<h3 style='color:green'>🟢 Healthy</h3>"%string /\
   ai_diagnosis_layer rc oc (risk_level (risk_engine m)) = commentary_healthy).
Proof.
  unfold risk_engine.
  destruct (leb m (Fin (-10))); [left; repeat split|].
  destruct (ltb (Fin (-10)) m && ltb m (Fin 0));
    [right; left; repeat split | right; right; repeat split].
Qed.

(** X19.  A change that is not a number is never flagged: a revenue change
    of NaN is Healthy with the diagnosis of no issue whatever the order
    change, and an order change of NaN gives the diagnosis of no issue
    whatever the revenue change, be it a decline of any size. *)
Theorem nan_is_never_flagged (m o : float) :
  risk_engine NaN = healthy /\
  diagnosis_engine NaN o = no_issue /\
  diagnosis_engine m NaN = no_issue.
Proof.
  split; [reflexivity|]. split; [reflexivity|].
  unfold diagnosis_engine, geb.
  destruct m as [q| | |]; simpl;
    try reflexivity; destruct (negb (Qle_bool 0 q)); reflexivity.
Qed.

(** ** No change *)



(** ** Changing the unit of the revenue or of the order count *)

Lemma float_eq_refl (x : float) : Float.eq x x.
Proof. destruct x; simpl; auto. apply Qeq_refl. Qed.

Lemma Qle_bool_compat (a a' b b' : Q) :
  a == a' -> b == b' -> Qle_bool a b = Qle_bool a' b'.
Proof.
  intros Ea Eb.
  destruct (Qle_bool a b) eqn:H; symmetry.
  - apply Qle_bool_iff. apply Qle_bool_iff in H. rewrite <- Ea, <- Eb. exact H.
  - apply not_true_iff_false. apply not_true_iff_false in H.
    intros H'. apply H. apply Qle_bool_iff. apply Qle_bool_iff in H'.
    rewrite Ea, Eb. exact H'.
Qed.

Lemma is_zero_scaled (g b b' : Q) :
  0 < g -> b' == g * b -> is_zero b' = is_zero b.
Proof.
  intros Hg E.
  destruct (is_zero b) eqn:H.
  - apply is_zero_true. apply is_zero_true in H. rewrite E, H. ring.
  - apply is_zero_false. apply is_zero_false in H. intros Z. apply H.
    rewrite E in Z. nra.
Qed.

Lemma is_neg_scaled (g b b' : Q) :
  0 < g -> b' == g * b -> is_neg b' = is_neg b.
Proof.
  intros Hg E. unfold is_neg. f_equal.
  destruct (Qle_bool 0 b) eqn:H.
  - apply Qle_bool_iff. apply Qle_bool_iff in H. rewrite E. nra.
  - apply not_true_iff_false. apply not_true_iff_false in H.
    intros H'. apply H. apply Qle_bool_iff. apply Qle_bool_iff in H'.
    rewrite E in H'. nra.
Qed.

Lemma Qcompare_scaled (g a a' : Q) :
  0 < g -> a' == g * a -> (a' ?= 0) = (a ?= 0).
Proof.
  intros Hg E.
  destruct (Qcompare_spec a 0) as [H|H|H].
  - apply Qeq_alt. rewrite E, H. ring.
  - apply (proj1 (Qlt_alt a' 0)). rewrite E. nra.
  - apply (proj1 (Qgt_alt a' 0)). rewrite E. nra.
Qed.

(** The quotient of two rescaled values is the quotient, rescaled. *)
Lemma div_scaled (k j a b : Q) :
  0 < k -> 0 < j ->
  scaled (k / j) (div (Fin a) (Fin b)) (div (Fin (k * a)) (Fin (j * b))).
Proof.
  intros Hk Hj.
  destruct (Qeq_dec b 0) as [Z|N].
  - assert (Z' : j * b == 0) by (rewrite Z; ring).
    rewrite (div_zero _ _ Z), (div_zero _ _ Z').
    rewrite (Qcompare_scaled k a (k * a) Hk (Qeq_refl _)).
    destruct (a ?= 0); exact I.
  - assert (N' : ~ j * b == 0) by (intros Z; apply N; nra).
    rewrite (div_Fin _ _ N), (div_Fin _ _ N'). simpl. field.
    split; [exact N | lra].
Qed.

(** A percentage change does not depend on the unit. *)
Lemma pct_change_scaled (g : Q) (x x' y y' : float) :
  0 < g -> scaled g x x' -> scaled g y y' ->
  Float.eq (pct_change x' y') (pct_change x y).
Proof.
  intros Hg Hx Hy.
  destruct y as [b| | |], y' as [b'| | |]; simpl in Hy; try contradiction;
    destruct x as [a| | |], x' as [a'| | |]; simpl in Hx; try contradiction;
    try exact I.
  - destruct (Qeq_dec b 0) as [Z|N].
    + assert (Z' : b' == 0) by (rewrite Hy, Z; ring).
      rewrite (pct_change_zero _ _ Z), (pct_change_zero _ _ Z').
      rewrite (Qcompare_scaled g a a' Hg Hx). apply float_eq_refl.
    + assert (N' : ~ b' == 0) by (rewrite Hy; intros Z; apply N; nra).
      rewrite (pct_change_Fin _ _ N), (pct_change_Fin _ _ N'). simpl.
      rewrite Hx, Hy. field. split; [exact N | lra].
  - unfold pct_change, sub, neg, add, div, mul, inf_signed.
    rewrite (is_neg_scaled g b b' Hg Hy). apply float_eq_refl.
  - unfold pct_change, sub, neg, add, div, mul, inf_signed.
    rewrite (is_neg_scaled g b b' Hg Hy). apply float_eq_refl.
Qed.

Lemma risk_engine_eq_compat (m m' : float) :
  Float.eq m m' -> risk_engine m = risk_engine m'.
Proof.
  destruct m as [q| | |], m' as [q'| | |]; simpl; intros E;
    try contradiction; try reflexivity.
  unfold risk_engine, leb, ltb.
  rewrite (Qle_bool_compat q q' (-10) (-10) E (Qeq_refl _)).
  rewrite (Qle_bool_compat 0 0 q q' (Qeq_refl _) E).
  reflexivity.
Qed.

Lemma diagnosis_engine_eq_compat (m m' o o' : float) :
  Float.eq m m' -> Float.eq o o' ->
  diagnosis_engine m o = diagnosis_engine m' o'.
Proof.
  destruct m as [q| | |], m' as [q'| | |]; simpl; intros E;
    try contradiction;
    destruct o as [r| | |], o' as [r'| | |]; simpl; intros F;
    try contradiction; try reflexivity;
    unfold diagnosis_engine, geb, leb, ltb;
    rewrite ?(Qle_bool_compat 0 0 q q' (Qeq_refl _) E),
            ?(Qle_bool_compat 0 0 r r' (Qeq_refl _) F);
    reflexivity.
Qed.

Lemma risk_score_eq_compat (m m' o o' a a' : float) :
  Float.eq m m' -> Float.eq o o' -> Float.eq a a' ->
  risk_score m o a = risk_score m' o' a'.
Proof.
  destruct m as [q| | |], m' as [q'| | |]; simpl; intros E;
    try contradiction;
    destruct o as [r| | |], o' as [r'| | |]; simpl; intros F;
    try contradiction;
    destruct a as [t| | |], a' as [t'| | |]; simpl; intros G;
    try contradiction; try reflexivity.
  unfold risk_score. rewrite !weighted_sum_Fin. cbn [round bind].
  do 2 f_equal. apply rint_comp. rewrite E, F, G. reflexivity.
Qed.



(** ** What the verdict depends on *)


(** ** The ends of the score *)

Lemma Qfloor_small (q : Q) : 0 <= q -> q < 1 -> Qfloor q = 0%Z.
Proof.
  intros H0 H1.
  pose proof (Qfloor_le q) as L. pose proof (Qlt_floor q) as U.
  assert (A : inject_Z (Qfloor q) < inject_Z 1)
    by (change (inject_Z 1) with 1; lra).
  assert (B : inject_Z (-1) < inject_Z (Qfloor q)).
  { rewrite inject_Z_plus in U. change (inject_Z 1) with 1 in U.
    change (inject_Z (-1)) with (-1). lra. }
  rewrite <- Zlt_Qlt in A, B. lia.
Qed.

Lemma rint_zero_iff (q : Q) : 0 <= q -> (rint q = 0%Z <-> q <= 1 # 2).
Proof.
  intros H0. split.
  - intros E. pose proof (rint_nearest q) as N. rewrite E in N.
    apply Qabs_Qle_condition in N. change (inject_Z 0) with 0 in N. lra.
  - intros H. unfold rint. rewrite (Qfloor_small q H0) by lra.
    change (inject_Z 0) with 0.
    destruct (Qcompare_spec (q - 0) (1 # 2)) as [E|E|E];
      try reflexivity. exfalso. lra.
Qed.



(** ** When the dashboard is drawn *)


(** ** The trend line in another unit *)

Lemma Qsum_scale (k : Q) (l : list Q) :
  Qsum (map (Qmult k) l) == k * Qsum l.
Proof.
  induction l as [|x l IH]; simpl.
  - ring.
  - rewrite IH. ring.
Qed.

Lemma dot_scale (k : Q) (xs ys : list Q) :
  dot xs (map (Qmult k) ys) == k * dot xs ys.
Proof.
  revert ys. induction xs as [|x xs IH]; intros [|y ys];
    unfold dot in *; simpl; try ring.
  rewrite IH. ring.
Qed.

